(** * gen_station_regions: NCDC station list to CCAFS region table

    A shallow embedding of [src/ncdc_download/gen_station_regions.py]
    (Python 2) and the properties of its region classifier [get_region]
    and of the record loop of [main].

    Conventions of the embedding:
    - Python [int]/[long] values are [Z] (arbitrary precision, no wrap);
      [/] on two integers is Python 2 floor division, i.e. [Z.div];
    - Python 2 [str] values are [string] (sequences of 8-bit characters);
    - Python [float] values are IEEE-754 binary64 numbers, [spec_float]
      at precision 53 and maximal exponent 1024;
    - an operation that can raise returns a [result]; [try: ... except:]
      is [try_except]. *)

From Stdlib Require Import ZArith Lia Bool List String Ascii.
From Stdlib Require Import DecimalString QArith Qround.
From Stdlib Require Import Floats.SpecFloat.
Import ListNotations.

Local Open Scope string_scope.
Local Open Scope Z_scope.

(** ** Exceptions and the error monad *)

Inductive exn : Type :=
| IndexError
| ValueError
| OverflowError.

Inductive result (A : Type) : Type :=
| Ok (a : A)
| Raise (e : exn).

Arguments Ok {A} a.
Arguments Raise {A} e.

Definition bind {A B : Type} (m : result A) (k : A -> result B) : result B :=
  match m with
  | Ok a => k a
  | Raise e => Raise e
  end.

Notation "x <- m ;; k" := (bind m (fun x => k))
  (at level 61, m at next level, right associativity).

(** [try: body / except: handler] with a bare [except], which catches
    every exception. *)
Definition try_except {A : Type} (body : result A) (handler : A) : A :=
  match body with
  | Ok a => a
  | Raise _ => handler
  end.

(** ** Builtins used by the script *)

(** [str(n)] for an integer [n]: decimal digits, ['-'] in front of a
    negative number. *)
Definition str (n : Z) : string := NilZero.string_of_int (Z.to_int n).

(** [len(s)] *)
Definition len (s : string) : Z := Z.of_nat (String.length s).

(** [s[i]] for a string: a negative index counts from the end, an index
    outside [-len(s), len(s))] raises [IndexError]. *)
Definition str_index (s : string) (i : Z) : result string :=
  let j := if i <? 0 then i + len s else i in
  if (j <? 0) || (len s <=? j) then Raise IndexError
  else match String.get (Z.to_nat j) s with
       | Some c => Ok (String c EmptyString)
       | None => Raise IndexError
       end.

(** ** The region classifier *)

(** The value of [lon] after the statement
    [if abs(lon) == 180: lon = -lon]. *)
Definition norm_lon (lon : Z) : Z :=
  if Z.abs lon =? 180 then - lon else lon.

(** The condition of the bounds test, on the latitude and the longitude
    as they are when the test runs. *)
Definition out_of_grid (lat lon : Z) : bool :=
  (lat <? -60) || (lat >? 90) || (lon <? -180) || (lon >? 179).

Definition get_region (lat lon : Z) : result string :=
  let lon := if Z.abs lon =? 180 then - lon else lon in
  if (lat <? -60) || (lat >? 90) || (lon <? -180) || (lon >? 179) then
    Ok "D"
  else
    row <- str_index "CBAA" ((lat + 60) / 50) ;;
    Ok (row ++ str ((lon + 180) / 60 + 1)).

(** ** Region codes *)

Definition is_row_letter (c : ascii) : bool :=
  (c =? "A")%char || (c =? "B")%char || (c =? "C")%char.

Definition is_column_digit (c : ascii) : bool :=
  (c =? "1")%char || (c =? "2")%char || (c =? "3")%char ||
  (c =? "4")%char || (c =? "5")%char || (c =? "6")%char.

(** The eighteen cell codes: a row letter and a column digit. *)
Definition is_cell_code (s : string) : bool :=
  match s with
  | String r (String c EmptyString) => is_row_letter r && is_column_digit c
  | _ => false
  end.

(** A region code is a cell code or the fallback ["D"]. *)
Definition is_region_code (s : string) : bool :=
  is_cell_code s || (s =? "D")%string.

(** ** Floating-point coordinates

    [float(...)] yields a binary64 number; [+ 90] converts the integer
    to a float and adds with rounding to nearest even; [int(...)]
    truncates toward zero and raises on an infinity or a NaN. *)

Definition float_add (x y : spec_float) : spec_float := SFadd 53 1024 x y.

Definition float_of_int (n : Z) : spec_float :=
  binary_normalize 53 1024 n 0 false.

Definition int_of_float (x : spec_float) : result Z :=
  match x with
  | S754_zero _ => Ok 0
  | S754_infinity _ => Raise OverflowError
  | S754_nan => Raise ValueError
  | S754_finite s m e => Ok (cond_Zopp s (Z.shiftl (Zpos m) e))
  end.

(** [int(v + offset) - offset], the expression that [main] evaluates for
    the latitude ([offset = 90]) and the longitude ([offset = 180]). *)
Definition shift_truncate (offset : Z) (v : spec_float) : result Z :=
  n <- int_of_float (float_add v (float_of_int offset)) ;;
  Ok (n - offset).

(** The rational number that a float denotes (0 for the values that
    denote none), and its floor. *)
Definition float_value (x : spec_float) : Q :=
  match x with
  | S754_finite s m e =>
      match e with
      | Zneg p => Qmake (cond_Zopp s (Zpos m)) (2 ^ p)
      | _ => inject_Z (cond_Zopp s (Zpos m) * 2 ^ e)
      end
  | _ => 0%Q
  end.

Definition is_finite (x : spec_float) : bool :=
  match x with
  | S754_zero _ | S754_finite _ _ _ => true
  | _ => false
  end.

Definition float_floor (x : spec_float) : Z := Qfloor (float_value x).

(** ** The record loop of [main] *)

(** [s.split(sep)] for a one-character separator: every occurrence
    splits, so the result has one more element than [s] has separators. *)
Fixpoint split (sep : ascii) (s : string) : list string :=
  match s with
  | EmptyString => [EmptyString]
  | String c r =>
      if (c =? sep)%char then EmptyString :: split sep r
      else match split sep r with
           | h :: t => String c h :: t
           | [] => [String c EmptyString]
           end
  end.

(** [s[1:-1]]: [s] without its first and its last character, empty when
    [s] has fewer than three characters. *)
Definition slice_1_m1 (s : string) : string :=
  substring 1 (String.length s - 2) s.

(** [l[i]] for a list and a non-negative index. *)
Definition list_index {A : Type} (l : list A) (i : nat) : result A :=
  match nth_error l i with
  | Some x => Ok x
  | None => Raise IndexError
  end.

Definition newline : string := String (ascii_of_nat 10) EmptyString.
Definition tab : string := String (ascii_of_nat 9) EmptyString.

(** [\d] of a byte-string pattern *)
Definition is_digit (c : ascii) : bool :=
  (48 <=? nat_of_ascii c)%nat && (nat_of_ascii c <=? 57)%nat.

(** [\d{n}] at the start of [s]: the rest of [s] when it matches. *)
Fixpoint match_digits (n : nat) (s : string) : option string :=
  match n with
  | O => Some s
  | S n' =>
      match s with
      | String c r => if is_digit c then match_digits n' r else None
      | EmptyString => None
      end
  end.

(** [valid_id.match(s)] for [valid_id = re.compile("^\d{6}-\d{5}$")]:
    [$] matches at the end of the string and before a newline that ends
    the string. *)
Definition valid_id_match (s : string) : bool :=
  match match_digits 6 s with
  | Some (String c r) =>
      (c =? "-")%char &&
      match match_digits 5 r with
      | Some rest => (rest =? EmptyString)%string || (rest =? newline)%string
      | None => false
      end
  | _ => false
  end.

(** The state that the loop threads: the line counter, the lines printed
    on standard output (each [print] is one element, without the newline
    that [print] adds) and the strings written to standard error. *)
Record state : Type := mkState {
  line_num : Z;
  stdout : list string;
  stderr : list string
}.

Section Pipeline.

(** The builtin [float] on a string; [Raise] is the exception of a
    string that is not a number. *)
Variable float : string -> result spec_float.

(** [int(float(fields[i][1:-1]) + offset) - offset], the right-hand
    side of the two assignments in the [try]. *)
Definition coordinate (offset : Z) (i : nat) (fields : list string)
  : result Z :=
  f <- list_index fields i ;;
  v <- float (slice_1_m1 f) ;;
  shift_truncate offset v.

(** The body of the [try]: both coordinates, then the classifier. *)
Definition try_region (fields : list string) : result string :=
  lat <- coordinate 90 6 fields ;;
  lon <- coordinate 180 7 fields ;;
  get_region lat lon.

(** One iteration of [for line in sys.stdin]. *)
Definition step (st : state) (line : string) : result state :=
  let line_num := line_num st + 1 in
  if line_num =? 1 then
    Ok (mkState line_num (stdout st) (stderr st))
  else
    let fields := split "," line in
    if Z.of_nat (List.length fields) <? 8 then
      Ok (mkState line_num (stdout st)
            (stderr st ++
               ["Too few fields on line " ++ str line_num ++ newline]))
    else
      f0 <- list_index fields 0 ;;
      f1 <- list_index fields 1 ;;
      let station := slice_1_m1 f0 ++ "-" ++ slice_1_m1 f1 in
      if negb (valid_id_match station) then
        Ok (mkState line_num (stdout st)
              (stderr st ++
                 ["Invalid station '" ++ station ++ "' on line "
                    ++ str line_num ++ newline]))
      else
        let region := try_except (try_region fields) "D" in
        Ok (mkState line_num
              (stdout st ++ [station ++ tab ++ region])
              (stderr st)).

Fixpoint run (st : state) (lines : list string) : result state :=
  match lines with
  | [] => Ok st
  | line :: rest => st' <- step st line ;; run st' rest
  end.

(** [main()], given [sys.argv[0]], the text of
    [datetime.today().ctime()] and the lines of standard input. *)
Definition main (argv0 ctime : string) (lines : list string)
  : result state :=
  run (mkState 0
         ["# Generated by " ++ argv0 ++ " at " ++ ctime ++ " using data";
          "# from ftp://ftp.ncdc.noaa.gov/pub/data/noaa/isd-history.csv"]
         [])
      lines.

End Pipeline.

(** ** A [float] for plain decimal literals

    A stand-in for the builtin on literals [[+-]digits[.digits]] of at
    most 15 significant digits: the correctly rounded quotient of the
    digits read as an integer by the power of ten of the fraction.
    Every other string raises here, also those that the builtin accepts
    (exponents, blanks, [inf], [nan]). It serves to run the loop on
    concrete lines; the statements about the loop hold for every
    [float]. *)

Fixpoint read_digits (s : string) (acc : Z) : option Z :=
  match s with
  | EmptyString => Some acc
  | String c r =>
      if is_digit c
      then read_digits r (10 * acc + Z.of_nat (nat_of_ascii c - 48))
      else None
  end.

Definition read_unsigned (s : string) : result spec_float :=
  match split "." s with
  | [ip] =>
      match ip, read_digits ip 0 with
      | String _ _, Some n => Ok (float_of_int n)
      | _, _ => Raise ValueError
      end
  | [ip; fp] =>
      match (ip ++ fp)%string, read_digits (ip ++ fp) 0 with
      | String _ _, Some n =>
          Ok (SFdiv 53 1024 (float_of_int n)
                (float_of_int (10 ^ Z.of_nat (String.length fp))))
      | _, _ => Raise ValueError
      end
  | _ => Raise ValueError
  end.

Definition float_decimal (s : string) : result spec_float :=
  match s with
  | String "-" r => v <- read_unsigned r ;; Ok (SFopp v)
  | String "+" r => read_unsigned r
  | _ => read_unsigned s
  end.

(** ** Sample input lines

    Rows in the shape of [isd-history.csv], every field in double
    quotes: the station of the header comment, a row whose coordinate
    fields are empty, as for the many stations without coordinates, a
    row with a malformed identifier, and a row of five fields. *)

Definition dquote : string := String (ascii_of_nat 34) EmptyString.

Definition quoted (s : string) : string := dquote ++ s ++ dquote.

Definition csv_row (fields : list string) : string :=
  String.concat "," (map quoted fields) ++ newline.

Definition row_with_coordinates : string :=
  csv_row ["029070"; "99999"; "A"; "B"; "C"; "D"; "51.9"; "4.4"; "E"].

Definition row_without_coordinates : string :=
  csv_row ["029070"; "99999"; "A"; "B"; "C"; "D";
           EmptyString; EmptyString; "E"].

Definition row_with_short_id : string :=
  csv_row ["12345"; "6789"; "A"; "B"; "C"; "D";
           EmptyString; EmptyString; "E"].

Definition row_of_five_fields : string := "a,b,c,d,e" ++ newline.

Definition header_row : string :=
  "USAF,WBAN,STATION NAME,CTRY,FIPS,STATE,LAT,LON" ++ newline.

(** The row letters as the ordered sequence that ["CBAA"] spells. *)
Definition row_letters : list string := ["C"; "B"; "A"; "A"].

(** ** Auxiliary notions for the statements *)

(** Every character of [s] is a decimal digit. *)
Fixpoint all_digits (s : string) : bool :=
  match s with
  | EmptyString => true
  | String c r => is_digit c && all_digits r
  end.

(** The number of occurrences of [c] in [s]. *)
Fixpoint count_char (c : ascii) (s : string) : nat :=
  match s with
  | EmptyString => O
  | String d r => if (d =? c)%char then S (count_char c r) else count_char c r
  end.

(** [f] holds on the [n] integers from [lo] upwards. *)
Fixpoint all_from (f : Z -> bool) (lo : Z) (n : nat) : bool :=
  match n with
  | O => true
  | S n' => f lo && all_from f (lo + 1) n'
  end.


(** The two banner lines that [main] prints first. *)
Definition banner (argv0 ctime : string) : list string :=
  ["# Generated by " ++ argv0 ++ " at " ++ ctime ++ " using data";
   "# from ftp://ftp.ncdc.noaa.gov/pub/data/noaa/isd-history.csv"]%string.

(** The shape of a line that the loop prints: a station identifier that
    matches the pattern, a tab, a region code. *)
Definition is_record_line (l : string) : Prop :=
  exists station code : string,
    l = (station ++ tab ++ code)%string /\
    valid_id_match station = true /\
    is_region_code code = true.

(** The shape of a string that the loop writes to standard error, for a
    line number between 2 and [last]. *)
Definition is_diagnostic (last : Z) (d : string) : Prop :=
  exists n : Z,
    2 <= n <= last /\
    (d = ("Too few fields on line " ++ str n ++ newline)%string \/
     exists station : string,
       valid_id_match station = false /\
       d = ("Invalid station '" ++ station ++ "' on line "
              ++ str n ++ newline)%string).

(** * Properties *)

(** ** Examples from the header comment and the grid corners *)

Example get_region_40_179 : get_region 40 179 = Ok "A6".
Proof. reflexivity. Qed.

Example get_region_51_4 : get_region 51 4 = Ok "A4".
Proof. reflexivity. Qed.

Example get_region_m61_0 : get_region (-61) 0 = Ok "D".
Proof. reflexivity. Qed.

Example get_region_m60_179 : get_region (-60) 179 = Ok "C6".
Proof. reflexivity. Qed.

Example str_neg : str (-17) = "-17".
Proof. reflexivity. Qed.

Example str_index_last : str_index "CBAA" (-1) = Ok "A".
Proof. reflexivity. Qed.

Example str_index_out : str_index "CBAA" 4 = Raise IndexError.
Proof. reflexivity. Qed.

(** ** The classifier: normalization, bounds, row and column *)

Lemma norm_lon_inner (lon : Z) : -179 <= lon <= 179 -> norm_lon lon = lon.
Proof.
  intros H. unfold norm_lon.
  destruct (Z.eqb_spec (Z.abs lon) 180) as [E | _]; [lia | reflexivity].
Qed.

Lemma norm_lon_180 : norm_lon 180 = -180.
Proof. reflexivity. Qed.

Lemma norm_lon_m180 : norm_lon (-180) = 180.
Proof. reflexivity. Qed.

Lemma out_of_grid_false (lat lon : Z) :
  out_of_grid lat lon = false <-> (-60 <= lat <= 90 /\ -180 <= lon <= 179).
Proof.
  unfold out_of_grid. rewrite !orb_false_iff.
  rewrite !Z.ltb_ge, !Z.gtb_ltb, !Z.ltb_ge. lia.
Qed.

Lemma out_of_grid_true (lat lon : Z) :
  out_of_grid lat lon = true <->
  (lat < -60 \/ lat > 90 \/ lon < -180 \/ lon > 179).
Proof.
  unfold out_of_grid. rewrite !orb_true_iff.
  rewrite !Z.gtb_ltb, !Z.ltb_lt. lia.
Qed.

(** [get_region] is the bounds test on the normalized longitude followed
    by the cell formula. *)
Lemma get_region_unfold (lat lon : Z) :
  get_region lat lon =
  if out_of_grid lat (norm_lon lon) then Ok "D"
  else row <- str_index "CBAA" ((lat + 60) / 50) ;;
       Ok (row ++ str ((norm_lon lon + 180) / 60 + 1))%string.
Proof. reflexivity. Qed.

Lemma row_index_bounds (lat : Z) :
  -60 <= lat <= 90 -> 0 <= (lat + 60) / 50 <= 3.
Proof.
  intros H. split.
  - apply Z.div_pos; lia.
  - apply Z.lt_succ_r. apply Z.div_lt_upper_bound; lia.
Qed.

Lemma column_bounds (lon : Z) :
  -180 <= lon <= 179 -> 1 <= (lon + 180) / 60 + 1 <= 6.
Proof.
  intros H.
  assert (0 <= (lon + 180) / 60) by (apply Z.div_pos; lia).
  assert ((lon + 180) / 60 < 6) by (apply Z.div_lt_upper_bound; lia).
  lia.
Qed.

Lemma small_cases_0_3 (i : Z) :
  0 <= i <= 3 -> i = 0 \/ i = 1 \/ i = 2 \/ i = 3.
Proof. lia. Qed.

Lemma small_cases_1_6 (c : Z) :
  1 <= c <= 6 -> c = 1 \/ c = 2 \/ c = 3 \/ c = 4 \/ c = 5 \/ c = 6.
Proof. lia. Qed.

(** Indexing ["CBAA"] at 0..3 never raises and reads the sequence
    C, B, A, A. *)
Lemma str_index_rows (i : Z) :
  0 <= i <= 3 ->
  exists r : ascii,
    str_index "CBAA" i = Ok (String r EmptyString) /\
    nth_error row_letters (Z.to_nat i) = Some (String r EmptyString) /\
    is_row_letter r = true.
Proof.
  intros H.
  destruct (small_cases_0_3 i H) as [-> | [-> | [-> | ->]]];
    eexists; repeat split; reflexivity.
Qed.

(** A column number 1..6 prints as one digit. *)
Lemma str_column (c : Z) :
  1 <= c <= 6 ->
  exists d : ascii, str c = String d EmptyString /\ is_column_digit d = true.
Proof.
  intros H.
  destruct (small_cases_1_6 c H) as [-> | [-> | [-> | [-> | [-> | ->]]]]];
    eexists; split; reflexivity.
Qed.

(** Inside the grid the result is the row letter followed by the column
    digit. *)
Lemma get_region_in_grid (lat lon : Z) :
  -60 <= lat <= 90 -> -180 <= norm_lon lon <= 179 ->
  exists r d : ascii,
    str_index "CBAA" ((lat + 60) / 50) = Ok (String r EmptyString) /\
    nth_error row_letters (Z.to_nat ((lat + 60) / 50))
      = Some (String r EmptyString) /\
    str ((norm_lon lon + 180) / 60 + 1) = String d EmptyString /\
    get_region lat lon = Ok (String r (String d EmptyString)) /\
    is_row_letter r = true /\ is_column_digit d = true.
Proof.
  intros Hlat Hlon.
  destruct (str_index_rows _ (row_index_bounds lat Hlat)) as (r & Hr & Hn & Hrl).
  destruct (str_column _ (column_bounds _ Hlon)) as (d & Hd & Hdl).
  exists r, d. repeat split; try assumption.
  rewrite get_region_unfold.
  assert (Hg : out_of_grid lat (norm_lon lon) = false)
    by (apply out_of_grid_false; lia).
  rewrite Hg, Hr, Hd. reflexivity.
Qed.

Lemma get_region_off_grid (lat lon : Z) :
  out_of_grid lat (norm_lon lon) = true -> get_region lat lon = Ok "D".
Proof. intros H. rewrite get_region_unfold, H. reflexivity. Qed.

(** An input longitude of -180 becomes +180 and fails the bounds test,
    whatever the latitude. *)
Lemma get_region_m180 (lat : Z) : get_region lat (-180) = Ok "D".
Proof.
  apply get_region_off_grid. apply out_of_grid_true.
  rewrite norm_lon_m180. lia.
Qed.

(** ** Claims about [get_region] *)

(** C1 (as stated, refuted): latitude -60 and longitude -180 lie in the
    claimed domain [-60, 90] x [-180, 179], yet [get_region] answers the
    fallback ["D"], which is no cell code. *)
Lemma get_region_west_edge_is_fallback :
  (-60 <= -60 <= 90) /\ (-180 <= -180 <= 179) /\
  get_region (-60) (-180) = Ok "D" /\ is_cell_code "D" = false.
Proof. repeat split; discriminate. Qed.

(** C1 (amended): for every latitude in [-60, 90] and every longitude in
    [-179, 179], [get_region] returns a two-character code whose first
    character is A, B or C and whose second character is a digit 1..6. *)
Theorem get_region_cell_code (lat lon : Z) :
  -60 <= lat <= 90 -> -179 <= lon <= 179 ->
  exists r d : ascii,
    get_region lat lon = Ok (String r (String d EmptyString)) /\
    is_row_letter r = true /\ is_column_digit d = true.
Proof.
  intros Hlat Hlon.
  assert (Hn : -180 <= norm_lon lon <= 179)
    by (rewrite norm_lon_inner; lia).
  destruct (get_region_in_grid lat lon Hlat Hn)
    as (r & d & _ & _ & _ & Hg & Hr & Hd).
  exists r, d. auto.
Qed.

Lemma get_region_cell_code_witness :
  (-60 <= 40 <= 90) /\ (-179 <= 179 <= 179) /\
  exists r d : ascii,
    get_region 40 179 = Ok (String r (String d EmptyString)) /\
    is_row_letter r = true /\ is_column_digit d = true.
Proof.
  split; [lia | split; [lia | apply (get_region_cell_code 40 179); lia]].
Defined.

(** C2 (as stated, refuted): [get_region(-60, -180)] is not ["C1"]. *)
Lemma get_region_m60_m180_not_C1 : get_region (-60) (-180) <> Ok "C1".
Proof. discriminate. Qed.

(** C2 (amended): for every latitude in [-60, 90], a longitude of exactly
    180 is normalized to -180 and lands in column 1, in particular
    [get_region(-60, 180) = "C1"]; a longitude of exactly -180 is
    normalized to +180 and gets the fallback ["D"]. *)
Theorem lon_180_lands_in_column_1 (lat : Z) :
  -60 <= lat <= 90 ->
  norm_lon 180 = -180 /\
  (exists r : ascii,
     nth_error row_letters (Z.to_nat ((lat + 60) / 50))
       = Some (String r EmptyString) /\
     get_region lat 180 = Ok (String r "1")) /\
  get_region (-60) 180 = Ok "C1" /\
  norm_lon (-180) = 180 /\
  get_region lat (-180) = Ok "D".
Proof.
  intros Hlat. split; [reflexivity |]. split.
  - destruct (get_region_in_grid lat 180 Hlat) as (r & d & _ & Hn & Hd & Hg & _).
    + rewrite norm_lon_180. lia.
    + exists r. split; [exact Hn |].
      rewrite norm_lon_180 in Hd. change (str ((-180 + 180) / 60 + 1)) with "1" in Hd.
      injection Hd as <-. exact Hg.
  - split; [reflexivity |]. split; [reflexivity |]. apply get_region_m180.
Qed.

Lemma lon_180_lands_in_column_1_witness :
  (-60 <= 0 <= 90) /\
  norm_lon 180 = -180 /\
  (exists r : ascii,
     nth_error row_letters (Z.to_nat ((0 + 60) / 50))
       = Some (String r EmptyString) /\
     get_region 0 180 = Ok (String r "1")) /\
  get_region (-60) 180 = Ok "C1" /\
  norm_lon (-180) = 180 /\
  get_region 0 (-180) = Ok "D".
Proof.
  split; [lia | apply (lon_180_lands_in_column_1 0); lia].
Defined.

(** C3 (as stated, refuted): at the valid latitude 0 the two calls
    differ, ["B1"] against ["D"]. *)
Lemma wraparound_differs_at_equator :
  (-60 <= 0 <= 90) /\ get_region 0 180 <> get_region 0 (-180).
Proof. split; [lia | discriminate]. Qed.

(** C3 (amended): for every latitude in [-60, 90], [get_region(lat, 180)]
    is the cell that the grid formula gives at longitude -180, while
    [get_region(lat, -180)] is ["D"]; the two calls agree only for a
    latitude outside [-60, 90]. *)
Theorem wraparound_of_180 (lat : Z) :
  -60 <= lat <= 90 ->
  get_region lat 180 =
    (row <- str_index "CBAA" ((lat + 60) / 50) ;;
     Ok (row ++ str ((-180 + 180) / 60 + 1))%string) /\
  get_region lat (-180) = Ok "D" /\
  get_region lat 180 <> get_region lat (-180).
Proof.
  intros Hlat.
  assert (Hg : out_of_grid lat (norm_lon 180) = false)
    by (apply out_of_grid_false; rewrite norm_lon_180; lia).
  split; [| split].
  - rewrite get_region_unfold, Hg, norm_lon_180. reflexivity.
  - apply get_region_m180.
  - rewrite get_region_m180.
    destruct (get_region_in_grid lat 180 Hlat) as (r & d & _ & _ & _ & Hr & _).
    + rewrite norm_lon_180. lia.
    + rewrite Hr. discriminate.
Qed.

Lemma wraparound_of_180_witness :
  (-60 <= 90 <= 90) /\
  get_region 90 180 =
    (row <- str_index "CBAA" ((90 + 60) / 50) ;;
     Ok (row ++ str ((-180 + 180) / 60 + 1))%string) /\
  get_region 90 (-180) = Ok "D" /\
  get_region 90 180 <> get_region 90 (-180).
Proof.
  split; [lia | apply (wraparound_of_180 90); lia].
Defined.

(** Outside the latitude band the two calls do agree, both on ["D"]. *)
Lemma wraparound_outside_band (lat : Z) :
  lat < -60 \/ lat > 90 -> get_region lat 180 = get_region lat (-180).
Proof.
  intros H. rewrite get_region_m180.
  apply get_region_off_grid. apply out_of_grid_true. lia.
Qed.

(** C4: when the bounds test passes on the latitude and the normalized
    longitude, [get_region] returns the row letter
    ["CBAA"[(lat + 60) div 50]] (also element [(lat + 60) div 50] of the
    sequence C, B, A, A) followed by the column number
    [(lon + 180) div 60 + 1] printed in decimal, and that number lies in
    [1, 6]. *)
Theorem get_region_row_column (lat lon : Z) :
  -60 <= lat <= 90 -> -180 <= norm_lon lon <= 179 ->
  exists row : string,
    str_index "CBAA" ((lat + 60) / 50) = Ok row /\
    nth_error row_letters (Z.to_nat ((lat + 60) / 50)) = Some row /\
    get_region lat lon
      = Ok (row ++ str ((norm_lon lon + 180) / 60 + 1))%string /\
    1 <= (norm_lon lon + 180) / 60 + 1 <= 6.
Proof.
  intros Hlat Hlon.
  destruct (get_region_in_grid lat lon Hlat Hlon)
    as (r & d & Hr & Hn & Hd & Hg & _).
  exists (String r EmptyString). repeat split; try assumption.
  - rewrite Hd. exact Hg.
  - apply column_bounds; assumption.
  - apply column_bounds; assumption.
Qed.

Lemma get_region_row_column_witness :
  (-60 <= 51 <= 90) /\ (-180 <= norm_lon 180 <= 179) /\
  exists row : string,
    str_index "CBAA" ((51 + 60) / 50) = Ok row /\
    nth_error row_letters (Z.to_nat ((51 + 60) / 50)) = Some row /\
    get_region 51 180
      = Ok (row ++ str ((norm_lon 180 + 180) / 60 + 1))%string /\
    1 <= (norm_lon 180 + 180) / 60 + 1 <= 6.
Proof.
  split; [lia | split; [vm_compute; split; discriminate |]].
  apply (get_region_row_column 51 180); [lia | vm_compute; split; discriminate].
Defined.

(** C5: [get_region(90, 0) = "A4"]: latitude 90 passes the bounds test,
    has row index 3, and index 3 of ["CBAA"] is the second "A". *)
Theorem get_region_90_0 :
  get_region 90 0 = Ok "A4" /\
  out_of_grid 90 (norm_lon 0) = false /\
  (90 + 60) / 50 = 3 /\
  str_index "CBAA" 3 = Ok "A" /\
  nth_error row_letters 3 = Some "A".
Proof. repeat split. Qed.

(** C6: a latitude below -60 or above 90, or a longitude that after the
    normalization lies outside [-180, 179], gives the fallback ["D"]. *)
Theorem get_region_fallback (lat lon : Z) :
  lat < -60 \/ lat > 90 \/ norm_lon lon < -180 \/ norm_lon lon > 179 ->
  get_region lat lon = Ok "D".
Proof.
  intros H. apply get_region_off_grid. apply out_of_grid_true. exact H.
Qed.

Lemma get_region_fallback_witness :
  (-61 < -60 \/ -61 > 90 \/ norm_lon 200 < -180 \/ norm_lon 200 > 179) /\
  get_region (-61) 200 = Ok "D".
Proof.
  split; [left; lia | apply (get_region_fallback (-61) 200); left; lia].
Defined.

(** C10: [get_region] never raises: on every pair of integers it returns
    a region code (a cell code or ["D"]); and when the bounds test passes
    the row index is in [0, 3], so indexing ["CBAA"] succeeds. *)
Theorem get_region_total (lat lon : Z) :
  (exists code : string,
     get_region lat lon = Ok code /\ is_region_code code = true) /\
  (out_of_grid lat (norm_lon lon) = false ->
   0 <= (lat + 60) / 50 <= 3 /\
   exists row : string, str_index "CBAA" ((lat + 60) / 50) = Ok row).
Proof.
  split.
  - destruct (out_of_grid lat (norm_lon lon)) eqn:Hg.
    + exists "D". split; [apply get_region_off_grid; exact Hg | reflexivity].
    + apply out_of_grid_false in Hg. destruct Hg as [Hlat Hlon].
      destruct (get_region_in_grid lat lon Hlat Hlon)
        as (r & d & _ & _ & _ & Hr & Hrl & Hdl).
      exists (String r (String d EmptyString)). split; [exact Hr |].
      unfold is_region_code, is_cell_code. rewrite Hrl, Hdl. reflexivity.
  - intros Hg. apply out_of_grid_false in Hg. destruct Hg as [Hlat Hlon].
    split; [apply row_index_bounds; exact Hlat |].
    destruct (str_index_rows _ (row_index_bounds lat Hlat)) as (r & Hr & _).
    eexists; exact Hr.
Qed.

Lemma get_region_total_witness :
  (exists code : string,
     get_region 90 0 = Ok code /\ is_region_code code = true) /\
  (out_of_grid 90 (norm_lon 0) = false ->
   0 <= (90 + 60) / 50 <= 3 /\
   exists row : string, str_index "CBAA" ((90 + 60) / 50) = Ok row).
Proof. exact (get_region_total 90 0). Defined.

(** ** Truncation of the parsed coordinates *)

(** The floor of a finite float is the arithmetic shift of its signed
    mantissa by its exponent. *)
Lemma float_floor_shift (s : bool) (m : positive) (e : Z) :
  float_floor (S754_finite s m e) = Z.shiftl (cond_Zopp s (Zpos m)) e.
Proof.
  unfold float_floor, float_value. destruct e as [| p | p].
  - rewrite Qfloor_Z, Z.shiftl_0_r. apply Z.mul_1_r.
  - rewrite Qfloor_Z, Z.shiftl_mul_pow2; [reflexivity | apply Pos2Z.is_nonneg].
  - change (Z.shiftl (cond_Zopp s (Z.pos m)) (Z.neg p))
      with (Z.shiftr (cond_Zopp s (Z.pos m)) (Z.pos p)).
    rewrite Z.shiftr_div_pow2 by apply Pos2Z.is_nonneg.
    unfold Qfloor. rewrite Pos2Z.inj_pow. reflexivity.
Qed.

(** A finite float of non-negative value has a clear sign bit. *)
Lemma float_value_nonneg_sign (s : bool) (m : positive) (e : Z) :
  (0 <= float_value (S754_finite s m e))%Q -> s = false.
Proof.
  destruct s; [| reflexivity]. intros H. exfalso.
  unfold float_value, cond_Zopp in H. destruct e as [| p | p].
  - rewrite <- (Zle_Qle 0) in H. simpl in H. lia.
  - rewrite <- (Zle_Qle 0) in H.
    assert (0 < 2 ^ Z.pos p) by (apply Z.pow_pos_nonneg; lia). nia.
  - unfold Qle in H. simpl in H. lia.
Qed.

(** On a finite float of non-negative value, [int] is the floor. *)
Lemma int_of_float_nonneg (x : spec_float) :
  is_finite x = true -> (0 <= float_value x)%Q ->
  int_of_float x = Ok (float_floor x).
Proof.
  intros Hf Hx. destruct x as [s | s | | s m e]; try discriminate.
  - reflexivity.
  - rewrite float_floor_shift.
    rewrite (float_value_nonneg_sign s m e Hx). reflexivity.
Qed.

(** On a finite float of negative value that is not an integer, [int]
    is one more than the floor: truncation toward zero. *)
Lemma int_of_float_neg (m : positive) (e : Z) :
  int_of_float (S754_finite true m e) = Ok (- Z.shiftl (Zpos m) e).
Proof. reflexivity. Qed.


Lemma float_floor_nonneg_value (x : spec_float) :
  0 <= float_floor x -> (0 <= float_value x)%Q.
Proof.
  intros H. unfold float_floor in H.
  apply Qle_trans with (inject_Z (Qfloor (float_value x))).
  - rewrite <- (Zle_Qle 0). exact H.
  - apply Qfloor_le.
Qed.

(** ** Rounding of the float sum

    [float_add] is [SFadd]: the two mantissas are aligned at the lower
    exponent, added as integers, and the sum is rounded to 53 bits, to
    nearest with ties to even. The lemmas follow that computation: the
    alignment, the right shift that drops the low bits and remembers
    whether any was set, the rounding step, and the renormalization
    when rounding carries into a 54th bit. *)























(** ** Claims about the truncation *)




Example float_decimal_signed :
  float_decimal "+51.900" = float_decimal "51.9" /\
  float_decimal "+-5" = Raise ValueError /\
  float_decimal "+" = Raise ValueError.
Proof. repeat split. Qed.

Example shift_truncate_51_9 :
  (v <- float_decimal "51.9" ;; shift_truncate 90 v) = Ok 51.
Proof. reflexivity. Qed.

(** A longitude strictly between -180 and -179 truncates to -180, which
    the classifier then sends to the fallback. *)
Example west_of_m179_is_fallback :
  (v <- float_decimal "-179.5" ;;
   lon <- shift_truncate 180 v ;;
   get_region 0 lon) = Ok "D".
Proof. reflexivity. Qed.

Example shift_truncate_m0_5 :
  (v <- float_decimal "-0.5" ;; shift_truncate 90 v) = Ok (-1).
Proof. reflexivity. Qed.

(** ** The record loop *)

Section PipelineFacts.

Variable float : string -> result spec_float.

Lemma list_index_lt {A : Type} (l : list A) (i : nat) :
  (i < List.length l)%nat -> exists x, list_index l i = Ok x.
Proof.
  intros H. unfold list_index.
  destruct (nth_error l i) eqn:E; [eexists; reflexivity |].
  apply nth_error_None in E. lia.
Qed.

(** The body of the [try] raises exactly when a coordinate does:
    the classifier itself never raises. *)
Lemma try_region_raises (fields : list string) :
  (exists e, try_region float fields = Raise e) <->
  ((exists e, coordinate float 90 6 fields = Raise e) \/
   (exists e, coordinate float 180 7 fields = Raise e)).
Proof.
  unfold try_region. split.
  - intros [e He].
    destruct (coordinate float 90 6 fields) as [lat | e1]; [| eauto].
    destruct (coordinate float 180 7 fields) as [lon | e2]; [| eauto].
    simpl in He. exfalso.
    destruct (out_of_grid lat (norm_lon lon)) eqn:Hg.
    + rewrite (get_region_off_grid _ _ Hg) in He. discriminate.
    + apply out_of_grid_false in Hg. destruct Hg as [Hlat Hlon].
      destruct (get_region_in_grid lat lon Hlat Hlon)
        as (r & d & _ & _ & _ & Hr & _).
      rewrite Hr in He. discriminate.
  - intros [[e He] | [e He]].
    + rewrite He. simpl. eauto.
    + rewrite He. destruct (coordinate float 90 6 fields); simpl; eauto.
Qed.

(** The header line only advances the counter. *)
Lemma step_header (st : state) (line : string) :
  line_num st = 0 ->
  step float st line = Ok (mkState 1 (stdout st) (stderr st)).
Proof. intros H. unfold step. rewrite H. reflexivity. Qed.

Lemma step_too_few (st : state) (line : string) :
  line_num st + 1 <> 1 ->
  (List.length (split "," line) < 8)%nat ->
  step float st line =
  Ok (mkState (line_num st + 1) (stdout st)
        (stderr st ++
           ["Too few fields on line " ++ str (line_num st + 1) ++ newline]%string)).
Proof.
  intros Hn Hlen. unfold step.
  destruct (Z.eqb_spec (line_num st + 1) 1) as [E | _]; [contradiction |].
  destruct (Z.ltb_spec (Z.of_nat (List.length (split "," line))) 8) as [_ | E];
    [reflexivity | lia].
Qed.

(** No iteration raises, and each one advances the counter by one. *)
Lemma step_total (st : state) (line : string) :
  exists st', step float st line = Ok st' /\ line_num st' = line_num st + 1.
Proof.
  unfold step.
  destruct (line_num st + 1 =? 1); [eexists; split; reflexivity |].
  destruct (Z.ltb_spec (Z.of_nat (List.length (split "," line))) 8) as [_ | E];
    [eexists; split; reflexivity |].
  destruct (list_index_lt (split "," line) 0) as [f0 ->]; [lia |].
  destruct (list_index_lt (split "," line) 1) as [f1 ->]; [lia |].
  simpl.
  destruct (valid_id_match _); simpl; eexists; split; reflexivity.
Qed.

Lemma run_total (lines : list string) (st : state) :
  exists st',
    run float st lines = Ok st' /\
    line_num st' = line_num st + Z.of_nat (List.length lines).
Proof.
  revert st. induction lines as [| line rest IH]; intros st.
  - exists st. split; [reflexivity | simpl; lia].
  - destruct (step_total st line) as (st1 & H1 & N1).
    destruct (IH st1) as (st2 & H2 & N2).
    exists st2. simpl run. rewrite H1. simpl. split; [exact H2 |].
    rewrite N2, N1. simpl List.length. lia.
Qed.

Lemma run_app (l1 l2 : list string) (st : state) :
  run float st (l1 ++ l2) = (st' <- run float st l1 ;; run float st' l2).
Proof.
  revert st. induction l1 as [| line rest IH]; intros st; [reflexivity |].
  simpl. destruct (step float st line) as [st1 | e]; [| reflexivity].
  simpl. apply IH.
Qed.

End PipelineFacts.

(** The example row of the header comment, a row with empty coordinates,
    a short row and a row with a malformed identifier. *)
Example main_sample :
  main float_decimal "gen_station_regions.py" "Thu Jan  1 00:00:00 2015"
    [header_row; row_with_coordinates; row_of_five_fields;
     row_without_coordinates; row_with_short_id]
  = Ok (mkState 5
          ["# Generated by gen_station_regions.py at Thu Jan  1 00:00:00 2015 using data";
           "# from ftp://ftp.ncdc.noaa.gov/pub/data/noaa/isd-history.csv";
           "029070-99999" ++ tab ++ "A4";
           "029070-99999" ++ tab ++ "D"]%string
          ["Too few fields on line 3" ++ newline;
           "Invalid station '12345-6789' on line 5" ++ newline]%string).
Proof. vm_compute. reflexivity. Qed.

(** ** Claims about the record loop *)

(** C8: a record (a line after the header, with at least 8 fields) whose
    station identifier is valid and for which the evaluation of either
    coordinate raises is not skipped: the iteration prints the line
    [station <TAB> D] and writes nothing to standard error. *)
Theorem unparsed_coordinates_default_to_D
  (float : string -> result spec_float) (st : state) (line f0 f1 : string) :
  1 <= line_num st ->
  (8 <= List.length (split "," line))%nat ->
  list_index (split "," line) 0 = Ok f0 ->
  list_index (split "," line) 1 = Ok f1 ->
  valid_id_match (slice_1_m1 f0 ++ "-" ++ slice_1_m1 f1) = true ->
  (exists e, coordinate float 90 6 (split "," line) = Raise e) \/
  (exists e, coordinate float 180 7 (split "," line) = Raise e) ->
  step float st line =
  Ok (mkState (line_num st + 1)
        (stdout st ++
           [(slice_1_m1 f0 ++ "-" ++ slice_1_m1 f1) ++ tab ++ "D"]%string)
        (stderr st)).
Proof.
  intros Hn Hlen H0 H1 Hid Hfail.
  apply try_region_raises in Hfail. destruct Hfail as [e He].
  unfold step.
  destruct (Z.eqb_spec (line_num st + 1) 1) as [E | _]; [lia |].
  destruct (Z.ltb_spec (Z.of_nat (List.length (split "," line))) 8) as [E | _];
    [lia |].
  rewrite H0, H1. cbn [bind]. rewrite Hid. cbn [negb]. rewrite He. reflexivity.
Qed.

Lemma unparsed_coordinates_default_to_D_witness :
  1 <= line_num (mkState 1 [] []) /\
  (8 <= List.length (split "," row_without_coordinates))%nat /\
  list_index (split "," row_without_coordinates) 0 = Ok (quoted "029070") /\
  list_index (split "," row_without_coordinates) 1 = Ok (quoted "99999") /\
  valid_id_match (slice_1_m1 (quoted "029070") ++ "-" ++ slice_1_m1 (quoted "99999"))
    = true /\
  ((exists e,
      coordinate float_decimal 90 6 (split "," row_without_coordinates)
        = Raise e) \/
   (exists e,
      coordinate float_decimal 180 7 (split "," row_without_coordinates)
        = Raise e)) /\
  step float_decimal (mkState 1 [] []) row_without_coordinates =
  Ok (mkState 2 ["029070-99999" ++ tab ++ "D"]%string []).
Proof.
  assert (Hlen : (8 <= List.length (split "," row_without_coordinates))%nat)
    by (vm_compute; lia).
  assert (Hfail :
    (exists e,
       coordinate float_decimal 90 6 (split "," row_without_coordinates)
         = Raise e) \/
    (exists e,
       coordinate float_decimal 180 7 (split "," row_without_coordinates)
         = Raise e))
    by (left; exists ValueError; reflexivity).
  split; [simpl; lia |].
  split; [exact Hlen |].
  split; [reflexivity |].
  split; [reflexivity |].
  split; [reflexivity |].
  split; [exact Hfail |].
  apply (unparsed_coordinates_default_to_D float_decimal (mkState 1 [] [])
           row_without_coordinates (quoted "029070") (quoted "99999"));
    [simpl; lia | exact Hlen | reflexivity | reflexivity | reflexivity
    | exact Hfail].
Defined.

(** C9: a line after the header that splits into fewer than 8 fields
    adds nothing to standard output and exactly one string to standard
    error, ["Too few fields on line N"] with [N] its 1-based line
    number; the loop then goes on with the following lines, and ends
    without raising. *)
Theorem too_few_fields_skipped
  (float : string -> result spec_float) (argv0 ctime : string)
  (pre post : list string) (line : string) :
  pre <> [] ->
  (List.length (split "," line) < 8)%nat ->
  exists st skipped : state,
    main float argv0 ctime pre = Ok st /\
    skipped =
      mkState (Z.of_nat (List.length pre) + 1) (stdout st)
        (stderr st ++
           ["Too few fields on line "
              ++ str (Z.of_nat (List.length pre) + 1) ++ newline]%string) /\
    main float argv0 ctime (pre ++ [line]) = Ok skipped /\
    main float argv0 ctime (pre ++ line :: post) = run float skipped post /\
    exists final : state, run float skipped post = Ok final.
Proof.
  intros Hpre Hlen. unfold main.
  set (init := mkState 0 _ []).
  destruct (run_total float pre init) as (st & Hst & Hnum).
  change (line_num init) with 0 in Hnum. rewrite Z.add_0_l in Hnum.
  assert (Hpos : line_num st + 1 <> 1).
  { destruct pre; [contradiction | simpl List.length in Hnum; lia]. }
  pose proof (step_too_few float st line Hpos Hlen) as Hstep.
  rewrite Hnum in Hstep.
  eexists st, _. split; [exact Hst |]. split; [reflexivity |].
  split; [| split].
  - rewrite run_app, Hst. simpl. rewrite Hstep. reflexivity.
  - rewrite run_app, Hst. simpl. rewrite Hstep. reflexivity.
  - destruct (run_total float post
                (mkState (Z.of_nat (List.length pre) + 1) (stdout st)
                   (stderr st ++
                      ["Too few fields on line "
                         ++ str (Z.of_nat (List.length pre) + 1) ++ newline]%string)))
      as (final & Hfinal & _).
    exists final. exact Hfinal.
Qed.

Lemma too_few_fields_skipped_witness :
  [header_row] <> [] /\
  (List.length (split "," row_of_five_fields) < 8)%nat /\
  exists st skipped : state,
    main float_decimal "gen_station_regions.py" "now" [header_row] = Ok st /\
    skipped =
      mkState (Z.of_nat (List.length [header_row]) + 1) (stdout st)
        (stderr st ++
           ["Too few fields on line "
              ++ str (Z.of_nat (List.length [header_row]) + 1) ++ newline]%string) /\
    main float_decimal "gen_station_regions.py" "now"
      ([header_row] ++ [row_of_five_fields]) = Ok skipped /\
    main float_decimal "gen_station_regions.py" "now"
      ([header_row] ++ row_of_five_fields :: [row_without_coordinates])
      = run float_decimal skipped [row_without_coordinates] /\
    exists final : state,
      run float_decimal skipped [row_without_coordinates] = Ok final.
Proof.
  split; [discriminate |].
  split; [vm_compute; lia |].
  apply (too_few_fields_skipped float_decimal "gen_station_regions.py" "now"
           [header_row] [row_without_coordinates] row_of_five_fields);
    [discriminate | vm_compute; lia].
Defined.

Example too_few_fields_line_2 :
  main float_decimal "gen_station_regions.py" "now"
    [header_row; row_of_five_fields]
  = Ok (mkState 2
          ["# Generated by gen_station_regions.py at now using data";
           "# from ftp://ftp.ncdc.noaa.gov/pub/data/noaa/isd-history.csv"]
          ["Too few fields on line 2" ++ newline]%string).
Proof. vm_compute. reflexivity. Qed.

(** * Further properties of the script *)

(** ** The classifier as a map of the grid *)

Lemma norm_lon_in_range (lon : Z) :
  -180 <= norm_lon lon <= 179 <-> -179 <= lon <= 180.
Proof.
  unfold norm_lon.
  destruct (Z.eqb_spec (Z.abs lon) 180) as [E | E]; lia.
Qed.

Lemma get_region_is_region_code (lat lon : Z) :
  exists code : string,
    get_region lat lon = Ok code /\ is_region_code code = true.
Proof.
  destruct (out_of_grid lat (norm_lon lon)) eqn:Hg.
  - exists "D". split; [apply get_region_off_grid; exact Hg | reflexivity].
  - apply out_of_grid_false in Hg. destruct Hg as [Hlat Hlon].
    destruct (get_region_in_grid lat lon Hlat Hlon)
      as (r & d & _ & _ & _ & Hr & Hrl & Hdl).
    exists (String r (String d EmptyString)). split; [exact Hr |].
    unfold is_region_code, is_cell_code. rewrite Hrl, Hdl. reflexivity.
Qed.

(** X1: the fallback ["D"] is returned exactly for the inputs off the
    grid, and in terms of the longitude as passed the grid is
    [-60 <= lat <= 90], [-179 <= lon <= 180]. *)
Theorem get_region_fallback_iff (lat lon : Z) :
  get_region lat lon = Ok "D" <->
  (lat < -60 \/ lat > 90 \/ lon < -179 \/ lon > 180).
Proof.
  pose proof (norm_lon_in_range lon) as Hr.
  destruct (out_of_grid lat (norm_lon lon)) eqn:Hg.
  - split; [intros _ | intros _; apply get_region_off_grid; exact Hg].
    apply out_of_grid_true in Hg. lia.
  - apply out_of_grid_false in Hg. destruct Hg as [Hlat Hlon].
    destruct (get_region_in_grid lat lon Hlat Hlon)
      as (r & d & _ & _ & _ & Hc & _).
    split; [rewrite Hc; discriminate | lia].
Qed.

Lemma row_index_of_band (lat : Z) :
  -60 <= lat <= 90 ->
  (lat + 60) / 50 =
  if lat <? -10 then 0 else if lat <? 40 then 1 else if lat <? 90 then 2 else 3.
Proof.
  intros H.
  destruct (Z.ltb_spec lat (-10)); [| destruct (Z.ltb_spec lat 40);
    [| destruct (Z.ltb_spec lat 90)]];
    symmetry; apply Z.div_unique with (r := lat + 60 - 50 * ((lat + 60) / 50));
    Z.div_mod_to_equations; lia.
Qed.

(** X2: on the grid the row letter follows the latitude bands of the
    header comment: C for [-60, -10), B for [-10, 40) and A for
    [40, 90], with 90 included. *)
Theorem get_region_row_band (lat lon : Z) :
  -60 <= lat <= 90 -> -179 <= lon <= 180 ->
  exists d : ascii,
    is_column_digit d = true /\
    get_region lat lon =
    Ok (String (if lat <? -10 then "C"%char
                else if lat <? 40 then "B"%char else "A"%char)
          (String d EmptyString)).
Proof.
  intros Hlat Hlon.
  assert (Hn : -180 <= norm_lon lon <= 179) by (apply norm_lon_in_range; lia).
  destruct (get_region_in_grid lat lon Hlat Hn)
    as (r & d & Hr & _ & _ & Hc & _ & Hd).
  exists d. split; [exact Hd |]. rewrite Hc.
  rewrite (row_index_of_band lat Hlat) in Hr.
  destruct (lat <? -10); [| destruct (lat <? 40); [| destruct (lat <? 90)]];
    injection Hr as <-; reflexivity.
Qed.

Lemma get_region_row_band_witness :
  (-60 <= 90 <= 90) /\ (-179 <= 180 <= 180) /\
  exists d : ascii,
    is_column_digit d = true /\
    get_region 90 180 =
    Ok (String (if 90 <? -10 then "C"%char
                else if 90 <? 40 then "B"%char else "A"%char)
          (String d EmptyString)).
Proof.
  split; [lia | split; [lia | apply (get_region_row_band 90 180); lia]].
Defined.

(** X3: on the grid the column number [k] is the 60-degree band of the
    normalized longitude: band [k] is [60(k-1) - 180, 60k - 180). *)
Theorem get_region_column_band (lat lon k : Z) :
  -60 <= lat <= 90 -> 1 <= k <= 6 ->
  60 * (k - 1) - 180 <= norm_lon lon < 60 * k - 180 ->
  exists r : ascii,
    is_row_letter r = true /\
    get_region lat lon = Ok (String r (str k)).
Proof.
  intros Hlat Hk Hband.
  assert (Hn : -180 <= norm_lon lon <= 179) by lia.
  destruct (get_region_in_grid lat lon Hlat Hn)
    as (r & d & _ & _ & Hd & Hc & Hr & _).
  exists r. split; [exact Hr |]. rewrite Hc, <- Hd.
  replace ((norm_lon lon + 180) / 60 + 1) with k; [reflexivity |].
  assert ((norm_lon lon + 180) / 60 = k - 1); [| lia].
  symmetry. apply Z.div_unique with (r := norm_lon lon + 180 - 60 * (k - 1)); lia.
Qed.

Lemma get_region_column_band_witness :
  (-60 <= 0 <= 90) /\ (1 <= 4 <= 6) /\
  (60 * (4 - 1) - 180 <= norm_lon 59 < 60 * 4 - 180) /\
  exists r : ascii,
    is_row_letter r = true /\ get_region 0 59 = Ok (String r (str 4)).
Proof.
  assert (Hb : 60 * (4 - 1) - 180 <= norm_lon 59 < 60 * 4 - 180)
    by (vm_compute; split; [discriminate | reflexivity]).
  split; [lia | split; [lia | split; [exact Hb |]]].
  apply (get_region_column_band 0 59 4); [lia | lia | exact Hb].
Defined.

Lemma is_row_letter_cases (r : ascii) :
  is_row_letter r = true -> r = "A"%char \/ r = "B"%char \/ r = "C"%char.
Proof.
  unfold is_row_letter. rewrite !orb_true_iff, !Ascii.eqb_eq. tauto.
Qed.

Lemma is_column_digit_cases (d : ascii) :
  is_column_digit d = true ->
  d = "1"%char \/ d = "2"%char \/ d = "3"%char \/
  d = "4"%char \/ d = "5"%char \/ d = "6"%char.
Proof.
  unfold is_column_digit. rewrite !orb_true_iff, !Ascii.eqb_eq. tauto.
Qed.

(** X4: the results of [get_region] are exactly the nineteen region
    codes: every call returns one, and each of the eighteen cell codes
    and ["D"] is returned for some coordinates. *)
Theorem get_region_image (code : string) :
  is_region_code code = true <->
  exists lat lon : Z, get_region lat lon = Ok code.
Proof.
  split.
  - unfold is_region_code. rewrite orb_true_iff, String.eqb_eq.
    intros [Hcell | ->]; [| exists (-61), 0; reflexivity].
    destruct code as [| r [| d [| ? ?]]]; try discriminate.
    simpl in Hcell. apply andb_true_iff in Hcell. destruct Hcell as [Hr Hd].
    exists (if (r =? "C")%char then -60 else if (r =? "B")%char then -10 else 40).
    exists (60 * Z.of_nat (nat_of_ascii d) - 3090).
    destruct (is_row_letter_cases r Hr) as [-> | [-> | ->]];
      destruct (is_column_digit_cases d Hd)
        as [-> | [-> | [-> | [-> | [-> | ->]]]]];
      reflexivity.
  - intros (lat & lon & H).
    destruct (get_region_is_region_code lat lon) as (c & Hc & Hcode).
    rewrite H in Hc. injection Hc as <-. exact Hcode.
Qed.

(** ** The truncation at its edges *)

Lemma all_from_spec (f : Z -> bool) (n : nat) (lo z : Z) :
  all_from f lo n = true -> lo <= z < lo + Z.of_nat n -> f z = true.
Proof.
  revert lo. induction n as [| n IH]; intros lo Hall Hz; [lia |].
  simpl in Hall. apply andb_true_iff in Hall. destruct Hall as [Hlo Hrest].
  destruct (Z.eq_dec z lo) as [-> | Hne]; [exact Hlo |].
  apply (IH (lo + 1) Hrest). lia.
Qed.

Lemma shift_truncate_check (offset n : Z) :
  match shift_truncate offset (float_of_int n) with
  | Ok m => m =? n
  | Raise _ => false
  end = true ->
  shift_truncate offset (float_of_int n) = Ok n.
Proof.
  destruct (shift_truncate offset (float_of_int n)) as [m | e];
    [| discriminate].
  intros H. apply Z.eqb_eq in H. rewrite H. reflexivity.
Qed.

(** X5: whole degrees pass through unchanged: for an integer latitude
    in [-90, 90] read as a float, [int(v + 90) - 90] is that integer,
    and likewise for an integer longitude in [-180, 180] with 180. *)
Theorem whole_degrees_unchanged (offset n : Z) :
  offset = 90 \/ offset = 180 ->
  - offset <= n <= offset ->
  shift_truncate offset (float_of_int n) = Ok n.
Proof.
  intros Hoff Hn. apply shift_truncate_check.
  destruct Hoff as [-> | ->].
  - apply (all_from_spec
             (fun z => match shift_truncate 90 (float_of_int z) with
                       | Ok m => m =? z
                       | Raise _ => false
                       end) 181 (-90) n); [vm_compute; reflexivity | lia].
  - apply (all_from_spec
             (fun z => match shift_truncate 180 (float_of_int z) with
                       | Ok m => m =? z
                       | Raise _ => false
                       end) 361 (-180) n); [vm_compute; reflexivity | lia].
Qed.

Lemma whole_degrees_unchanged_witness :
  (180 = 90 \/ 180 = 180) /\ (- 180 <= -180 <= 180) /\
  shift_truncate 180 (float_of_int (-180)) = Ok (-180).
Proof.
  split; [right; reflexivity | split; [lia |]].
  apply (whole_degrees_unchanged 180 (-180)); [right; reflexivity | lia].
Defined.

(** X6: a coordinate that is not a number or is infinite makes the
    truncation raise ([ValueError] for a NaN, [OverflowError] for an
    infinity), for the two offsets that [main] uses. *)
Theorem shift_truncate_not_finite (offset : Z) (v : spec_float) :
  offset = 90 \/ offset = 180 ->
  is_finite v = false ->
  shift_truncate offset v =
  Raise (match v with S754_nan => ValueError | _ => OverflowError end).
Proof.
  intros [-> | ->] Hv; destruct v as [s | s | | s m e]; try discriminate;
    reflexivity.
Qed.

Lemma shift_truncate_not_finite_witness :
  (90 = 90 \/ 90 = 180) /\ is_finite (S754_infinity true) = false /\
  shift_truncate 90 (S754_infinity true) = Raise OverflowError.
Proof.
  split; [left; reflexivity | split; [reflexivity |]].
  apply (shift_truncate_not_finite 90 (S754_infinity true));
    [left; reflexivity | reflexivity].
Defined.

Lemma Qfloor_unit_interval (x : Q) : (0 <= x)%Q -> (x < 1)%Q -> Qfloor x = 0.
Proof.
  intros H0 H1.
  assert (Hlo : 0 <= Qfloor x).
  { rewrite <- (Qfloor_Z 0). apply Qfloor_resp_le. exact H0. }
  assert (Hhi : Qfloor x < 1).
  { rewrite Zlt_Qlt. apply Qle_lt_trans with x; [apply Qfloor_le | exact H1]. }
  lia.
Qed.

(** X7: when the float sum [v + 180] is finite and lies in [0, 1), as
    for a longitude from -180 up to -179, the longitude handed on is
    -180 and the station gets ["D"] at every latitude. *)
Theorem west_strip_is_fallback (v : spec_float) (lat : Z) :
  is_finite (float_add v (float_of_int 180)) = true ->
  (0 <= float_value (float_add v (float_of_int 180)))%Q ->
  (float_value (float_add v (float_of_int 180)) < 1)%Q ->
  shift_truncate 180 v = Ok (-180) /\
  (lon <- shift_truncate 180 v ;; get_region lat lon) = Ok "D".
Proof.
  intros Hfin H0 H1.
  assert (Hs : shift_truncate 180 v = Ok (-180)).
  { unfold shift_truncate. rewrite (int_of_float_nonneg _ Hfin H0).
    unfold float_floor. rewrite (Qfloor_unit_interval _ H0 H1). reflexivity. }
  split; [exact Hs |]. rewrite Hs. apply get_region_m180.
Qed.

Lemma west_strip_is_fallback_witness :
  is_finite (float_add (S754_finite true 6315594789945344 (-45))
               (float_of_int 180)) = true /\
  (0 <= float_value (float_add (S754_finite true 6315594789945344 (-45))
                       (float_of_int 180)))%Q /\
  (float_value (float_add (S754_finite true 6315594789945344 (-45))
                  (float_of_int 180)) < 1)%Q /\
  shift_truncate 180 (S754_finite true 6315594789945344 (-45)) = Ok (-180) /\
  (lon <- shift_truncate 180 (S754_finite true 6315594789945344 (-45)) ;;
   get_region 0 lon) = Ok "D".
Proof.
  split; [reflexivity |].
  split; [vm_compute; discriminate |].
  split; [vm_compute; reflexivity |].
  apply (west_strip_is_fallback (S754_finite true 6315594789945344 (-45)) 0);
    [reflexivity | vm_compute; discriminate | vm_compute; reflexivity].
Defined.

Example float_m179_5 :
  float_decimal "-179.5" = Ok (S754_finite true 6315594789945344 (-45)).
Proof. reflexivity. Qed.

(** ** The loop as a whole *)

Section LoopFacts.

Variable float : string -> result spec_float.

(** The region that an iteration prints is always a region code. *)
Lemma try_region_code (fields : list string) :
  is_region_code (try_except (try_region float fields) "D") = true.
Proof.
  unfold try_region.
  destruct (coordinate float 90 6 fields) as [lat | e1]; [| reflexivity].
  destruct (coordinate float 180 7 fields) as [lon | e2]; [| reflexivity].
  cbn [bind].
  destruct (get_region_is_region_code lat lon) as (c & Hc & Hcode).
  rewrite Hc. exact Hcode.
Qed.

(** A line after the header with at least 8 fields: the identifier
    decides between a diagnostic and a printed line. *)
Lemma step_record (st : state) (line f0 f1 : string) :
  line_num st + 1 <> 1 ->
  (8 <= List.length (split "," line))%nat ->
  list_index (split "," line) 0 = Ok f0 ->
  list_index (split "," line) 1 = Ok f1 ->
  step float st line =
  if valid_id_match (slice_1_m1 f0 ++ "-" ++ slice_1_m1 f1) then
    Ok (mkState (line_num st + 1)
          (stdout st ++
             [(slice_1_m1 f0 ++ "-" ++ slice_1_m1 f1) ++ tab ++
              try_except (try_region float (split "," line)) "D"]%string)
          (stderr st))
  else
    Ok (mkState (line_num st + 1) (stdout st)
          (stderr st ++
             ["Invalid station '" ++ (slice_1_m1 f0 ++ "-" ++ slice_1_m1 f1)
                ++ "' on line " ++ str (line_num st + 1) ++ newline]%string)).
Proof.
  intros Hn Hlen H0 H1. unfold step.
  destruct (Z.eqb_spec (line_num st + 1) 1) as [E | _]; [contradiction |].
  destruct (Z.ltb_spec (Z.of_nat (List.length (split "," line))) 8) as [E | _];
    [lia |].
  rewrite H0, H1. cbn [bind].
  destruct (valid_id_match (slice_1_m1 f0 ++ "-" ++ slice_1_m1 f1));
    reflexivity.
Qed.

(** What one iteration does to the state: the counter advances, the two
    streams are extended, by nothing for the header line and otherwise
    by one record line or one diagnostic. *)
Lemma step_shape (st : state) (line : string) :
  0 <= line_num st ->
  exists out err : list string,
    step float st line =
      Ok (mkState (line_num st + 1) (stdout st ++ out) (stderr st ++ err)) /\
    Forall is_record_line out /\
    Forall (is_diagnostic (line_num st + 1)) err /\
    (List.length out + List.length err)%nat =
      if line_num st =? 0 then 0%nat else 1%nat.
Proof.
  intros Hpos.
  destruct (Z.eqb_spec (line_num st) 0) as [E0 | E0].
  - exists [], []. rewrite (step_header float st line E0), E0, !app_nil_r.
    split; [reflexivity | split; [constructor | split; [constructor |]]].
    reflexivity.
  - assert (Hn : line_num st + 1 <> 1) by lia.
    destruct (Nat.lt_ge_cases (List.length (split "," line)) 8) as [Hlt | Hge].
    + exists [], [("Too few fields on line " ++ str (line_num st + 1)
                    ++ newline)%string].
      rewrite (step_too_few float st line Hn Hlt), app_nil_r.
      split; [reflexivity | split; [constructor | split; [| reflexivity]]].
      constructor; [| constructor].
      exists (line_num st + 1). split; [lia | left; reflexivity].
    + destruct (list_index_lt (split "," line) 0) as [f0 H0]; [lia |].
      destruct (list_index_lt (split "," line) 1) as [f1 H1]; [lia |].
      rewrite (step_record st line f0 f1 Hn Hge H0 H1).
      destruct (valid_id_match (slice_1_m1 f0 ++ "-" ++ slice_1_m1 f1)) eqn:Hid.
      * eexists [_], []. rewrite app_nil_r.
        split; [reflexivity | split; [| split; [constructor | reflexivity]]].
        constructor; [| constructor].
        eexists _, _. split; [reflexivity |].
        split; [exact Hid | apply try_region_code].
      * eexists [], [_]. rewrite app_nil_r.
        split; [reflexivity | split; [constructor | split; [| reflexivity]]].
        constructor; [| constructor].
        exists (line_num st + 1). split; [lia |]. right.
        eexists. split; [exact Hid | reflexivity].
Qed.

Lemma is_diagnostic_later (last last' : Z) (d : string) :
  last <= last' -> is_diagnostic last d -> is_diagnostic last' d.
Proof.
  intros Hle (n & Hn & Hd). exists n. split; [lia | exact Hd].
Qed.

(** The same for a whole run of the loop. *)
Lemma run_shape (lines : list string) (st : state) :
  0 <= line_num st ->
  exists out err : list string,
    run float st lines =
      Ok (mkState (line_num st + Z.of_nat (List.length lines))
            (stdout st ++ out) (stderr st ++ err)) /\
    Forall is_record_line out /\
    Forall (is_diagnostic (line_num st + Z.of_nat (List.length lines))) err /\
    (List.length out + List.length err)%nat =
      if line_num st =? 0 then pred (List.length lines)
      else List.length lines.
Proof.
  revert st. induction lines as [| line rest IH]; intros st Hpos.
  - exists [], []. simpl. rewrite Z.add_0_r, !app_nil_r.
    destruct st as [n o e]. simpl.
    split; [reflexivity | split; [constructor | split; [constructor |]]].
    destruct (n =? 0); reflexivity.
  - destruct (step_shape st line Hpos) as (o1 & e1 & Hstep & Ho1 & He1 & Hc1).
    set (st1 := mkState (line_num st + 1) (stdout st ++ o1) (stderr st ++ e1))
      in *.
    destruct (IH st1) as (o2 & e2 & Hrun & Ho2 & He2 & Hc2);
      [simpl; lia |].
    exists (o1 ++ o2)%list, (e1 ++ e2)%list.
    assert (Hlen : line_num st1 + Z.of_nat (List.length rest)
                   = line_num st + Z.of_nat (List.length (line :: rest)))
      by (simpl line_num; simpl List.length; lia).
    split; [| split; [| split]].
    + simpl run. rewrite Hstep. cbn [bind]. rewrite Hrun, Hlen.
      simpl stdout. simpl stderr. rewrite <- !app_assoc. reflexivity.
    + apply Forall_app. split; assumption.
    + apply Forall_app. split.
      * apply Forall_impl with (P := is_diagnostic (line_num st + 1));
          [| exact He1].
        intros d. apply is_diagnostic_later. simpl List.length. lia.
      * rewrite <- Hlen. exact He2.
    + rewrite !length_app.
      assert (Hnz : (line_num st1 =? 0) = false)
        by (apply Z.eqb_neq; simpl; lia).
      rewrite Hnz in Hc2. simpl List.length.
      destruct (line_num st =? 0); simpl; lia.
Qed.

End LoopFacts.

(** X8: [main] never ends in an uncaught exception, whatever the input
    lines and whatever [float] does, and the line counter ends at the
    number of lines read. *)
Theorem main_never_raises
  (float : string -> result spec_float) (argv0 ctime : string)
  (lines : list string) :
  exists st : state,
    main float argv0 ctime lines = Ok st /\
    line_num st = Z.of_nat (List.length lines).
Proof.
  unfold main.
  destruct (run_shape float lines (mkState 0 (banner argv0 ctime) []))
    as (out & err & Hrun & _); [simpl; lia |].
  eexists. split; [exact Hrun | reflexivity].
Qed.

(** X9: standard output is the two banner lines followed only by record
    lines: a station identifier that matches the pattern, a tab, and
    one of the nineteen region codes. *)
Theorem printed_lines_are_records
  (float : string -> result spec_float) (argv0 ctime : string)
  (lines : list string) :
  exists (st : state) (records : list string),
    main float argv0 ctime lines = Ok st /\
    stdout st = (banner argv0 ctime ++ records)%list /\
    Forall is_record_line records.
Proof.
  unfold main.
  destruct (run_shape float lines (mkState 0 (banner argv0 ctime) []))
    as (out & err & Hrun & Hout & _); [simpl; lia |].
  eexists _, out. split; [exact Hrun |]. split; [reflexivity | exact Hout].
Qed.

(** X10: standard error holds only the two diagnostics, each with a
    line number between 2 and the number of lines read: the header line
    is never reported. *)
Theorem diagnostics_are_numbered
  (float : string -> result spec_float) (argv0 ctime : string)
  (lines : list string) :
  exists st : state,
    main float argv0 ctime lines = Ok st /\
    Forall (is_diagnostic (Z.of_nat (List.length lines))) (stderr st).
Proof.
  unfold main.
  destruct (run_shape float lines (mkState 0 (banner argv0 ctime) []))
    as (out & err & Hrun & _ & Herr & _); [simpl; lia |].
  eexists. split; [exact Hrun | exact Herr].
Qed.

(** X11: every line after the header gives exactly one line, on
    standard output or on standard error: after the banner the two
    streams together hold as many lines as there are records. *)
Theorem one_line_per_record
  (float : string -> result spec_float) (argv0 ctime : string)
  (header : string) (records : list string) :
  exists st : state,
    main float argv0 ctime (header :: records) = Ok st /\
    (List.length (stdout st) + List.length (stderr st))%nat
      = (2 + List.length records)%nat.
Proof.
  unfold main.
  destruct (run_shape float (header :: records)
              (mkState 0 (banner argv0 ctime) []))
    as (out & err & Hrun & _ & _ & Hcount); [simpl; lia |].
  eexists. split; [exact Hrun |].
  simpl in Hcount. simpl. lia.
Qed.

(** X12: the first line is dropped unread: [main] goes on from line
    counter 1 with only the banner printed, so two inputs that differ
    in their first line only give the same result. *)
Theorem header_is_dropped
  (float : string -> result spec_float) (argv0 ctime : string)
  (header header' : string) (records : list string) :
  main float argv0 ctime (header :: records)
    = run float (mkState 1 (banner argv0 ctime) []) records /\
  main float argv0 ctime (header' :: records)
    = main float argv0 ctime (header :: records).
Proof.
  assert (H : forall h, main float argv0 ctime (h :: records)
                        = run float (mkState 1 (banner argv0 ctime) []) records).
  { intros h. unfold main. cbn [run].
    rewrite (step_header float _ h) by reflexivity. reflexivity. }
  split; [apply H | rewrite !H; reflexivity].
Qed.

(** X13: a line after the header with at least 8 fields whose
    identifier does not match the pattern prints nothing and writes the
    one diagnostic ["Invalid station '<id>' on line N"]. *)
Theorem invalid_station_skipped
  (float : string -> result spec_float) (st : state) (line f0 f1 : string) :
  1 <= line_num st ->
  (8 <= List.length (split "," line))%nat ->
  list_index (split "," line) 0 = Ok f0 ->
  list_index (split "," line) 1 = Ok f1 ->
  valid_id_match (slice_1_m1 f0 ++ "-" ++ slice_1_m1 f1) = false ->
  step float st line =
  Ok (mkState (line_num st + 1) (stdout st)
        (stderr st ++
           ["Invalid station '" ++ (slice_1_m1 f0 ++ "-" ++ slice_1_m1 f1)
              ++ "' on line " ++ str (line_num st + 1) ++ newline]%string)).
Proof.
  intros Hn Hlen H0 H1 Hid.
  rewrite (step_record float st line f0 f1); try assumption; [| lia].
  rewrite Hid. reflexivity.
Qed.

Lemma invalid_station_skipped_witness :
  1 <= line_num (mkState 4 [] []) /\
  (8 <= List.length (split "," row_with_short_id))%nat /\
  list_index (split "," row_with_short_id) 0 = Ok (quoted "12345") /\
  list_index (split "," row_with_short_id) 1 = Ok (quoted "6789") /\
  valid_id_match (slice_1_m1 (quoted "12345") ++ "-"
                    ++ slice_1_m1 (quoted "6789")) = false /\
  step float_decimal (mkState 4 [] []) row_with_short_id =
  Ok (mkState 5 []
        ["Invalid station '12345-6789' on line 5" ++ newline]%string).
Proof.
  assert (Hlen : (8 <= List.length (split "," row_with_short_id))%nat)
    by (vm_compute; lia).
  split; [simpl; lia |].
  split; [exact Hlen |].
  split; [reflexivity |].
  split; [reflexivity |].
  split; [reflexivity |].
  apply (invalid_station_skipped float_decimal (mkState 4 [] [])
           row_with_short_id (quoted "12345") (quoted "6789"));
    [simpl; lia | exact Hlen | reflexivity | reflexivity | reflexivity].
Defined.

(** X14: a line after the header with at least 8 fields, a matching
    identifier and two coordinates that evaluate without raising prints
    the identifier, a tab and the code that [get_region] returns for
    the two integers, and writes nothing to standard error. *)
Theorem parsed_record_prints_region
  (float : string -> result spec_float) (st : state) (line f0 f1 : string)
  (lat lon : Z) :
  1 <= line_num st ->
  (8 <= List.length (split "," line))%nat ->
  list_index (split "," line) 0 = Ok f0 ->
  list_index (split "," line) 1 = Ok f1 ->
  valid_id_match (slice_1_m1 f0 ++ "-" ++ slice_1_m1 f1) = true ->
  coordinate float 90 6 (split "," line) = Ok lat ->
  coordinate float 180 7 (split "," line) = Ok lon ->
  exists code : string,
    get_region lat lon = Ok code /\
    step float st line =
    Ok (mkState (line_num st + 1)
          (stdout st ++
             [(slice_1_m1 f0 ++ "-" ++ slice_1_m1 f1) ++ tab ++ code]%string)
          (stderr st)).
Proof.
  intros Hn Hlen H0 H1 Hid Hlat Hlon.
  destruct (get_region_is_region_code lat lon) as (code & Hcode & _).
  exists code. split; [exact Hcode |].
  rewrite (step_record float st line f0 f1); try assumption; [| lia].
  rewrite Hid. unfold try_region. rewrite Hlat, Hlon. cbn [bind].
  rewrite Hcode. reflexivity.
Qed.

Lemma parsed_record_prints_region_witness :
  1 <= line_num (mkState 1 [] []) /\
  (8 <= List.length (split "," row_with_coordinates))%nat /\
  list_index (split "," row_with_coordinates) 0 = Ok (quoted "029070") /\
  list_index (split "," row_with_coordinates) 1 = Ok (quoted "99999") /\
  valid_id_match (slice_1_m1 (quoted "029070") ++ "-"
                    ++ slice_1_m1 (quoted "99999")) = true /\
  coordinate float_decimal 90 6 (split "," row_with_coordinates) = Ok 51 /\
  coordinate float_decimal 180 7 (split "," row_with_coordinates) = Ok 4 /\
  exists code : string,
    get_region 51 4 = Ok code /\
    step float_decimal (mkState 1 [] []) row_with_coordinates =
    Ok (mkState 2 [("029070-99999" ++ tab ++ code)%string] []).
Proof.
  assert (Hlen : (8 <= List.length (split "," row_with_coordinates))%nat)
    by (vm_compute; lia).
  split; [simpl; lia |].
  split; [exact Hlen |].
  split; [reflexivity |].
  split; [reflexivity |].
  split; [reflexivity |].
  split; [reflexivity |].
  split; [reflexivity |].
  apply (parsed_record_prints_region float_decimal (mkState 1 [] [])
           row_with_coordinates (quoted "029070") (quoted "99999") 51 4);
    [simpl; lia | exact Hlen | reflexivity | reflexivity | reflexivity
    | reflexivity | reflexivity].
Defined.

(** X15: reading more lines only appends: what [main] has printed and
    reported after a prefix of the input stays as the beginning of both
    streams after the whole input. *)
Theorem streams_only_grow
  (float : string -> result spec_float) (argv0 ctime : string)
  (first more : list string) :
  exists (st st' : state) (out err : list string),
    main float argv0 ctime first = Ok st /\
    main float argv0 ctime (first ++ more) = Ok st' /\
    stdout st' = (stdout st ++ out)%list /\
    stderr st' = (stderr st ++ err)%list.
Proof.
  unfold main.
  destruct (run_shape float first (mkState 0 (banner argv0 ctime) []))
    as (o1 & e1 & Hrun1 & _); [simpl; lia |].
  match type of Hrun1 with _ = Ok ?s => set (st := s) in * end.
  destruct (run_shape float more st) as (o2 & e2 & Hrun2 & _);
    [simpl; lia |].
  exists st,
    (mkState (line_num st + Z.of_nat (List.length more))
       (stdout st ++ o2) (stderr st ++ e2)), o2, e2.
  split; [exact Hrun1 |].
  split; [| split; reflexivity].
  change (run float (mkState 0 (banner argv0 ctime) []) (first ++ more)
          = Ok (mkState (line_num st + Z.of_nat (List.length more))
                  (stdout st ++ o2) (stderr st ++ e2))).
  rewrite run_app, Hrun1. cbn [bind]. exact Hrun2.
Qed.

(** X16: the loop keeps no memory of earlier records: run from two
    states with the same line counter, an iteration appends the same
    lines to standard output and the same to standard error. *)
Theorem records_are_independent
  (float : string -> result spec_float) (st1 st2 : state) (line : string) :
  line_num st1 = line_num st2 ->
  exists out err : list string,
    step float st1 line =
      Ok (mkState (line_num st1 + 1) (stdout st1 ++ out) (stderr st1 ++ err)) /\
    step float st2 line =
      Ok (mkState (line_num st2 + 1) (stdout st2 ++ out) (stderr st2 ++ err)).
Proof.
  intros Hnum.
  destruct (Z.eq_dec (line_num st1) 0) as [E0 | E0].
  - exists [], []. rewrite !app_nil_r.
    rewrite (step_header float st1 line E0).
    rewrite (step_header float st2 line) by congruence.
    rewrite <- Hnum, E0. split; reflexivity.
  - assert (Hn1 : line_num st1 + 1 <> 1) by lia.
    assert (Hn2 : line_num st2 + 1 <> 1) by lia.
    destruct (Nat.lt_ge_cases (List.length (split "," line)) 8) as [Hlt | Hge].
    + eexists [], [_]. rewrite !app_nil_r.
      rewrite (step_too_few float st1 line Hn1 Hlt).
      rewrite (step_too_few float st2 line Hn2 Hlt).
      rewrite <- Hnum. split; reflexivity.
    + destruct (list_index_lt (split "," line) 0) as [f0 H0]; [lia |].
      destruct (list_index_lt (split "," line) 1) as [f1 H1]; [lia |].
      rewrite (step_record float st1 line f0 f1 Hn1 Hge H0 H1).
      rewrite (step_record float st2 line f0 f1 Hn2 Hge H0 H1).
      rewrite <- Hnum.
      destruct (valid_id_match (slice_1_m1 f0 ++ "-" ++ slice_1_m1 f1)).
      * eexists [_], []. rewrite !app_nil_r. split; reflexivity.
      * eexists [], [_]. rewrite !app_nil_r. split; reflexivity.
Qed.

Lemma records_are_independent_witness :
  line_num (mkState 1 [] []) = line_num (mkState 1 ["x"] ["y"]) /\
  exists out err : list string,
    step float_decimal (mkState 1 [] []) row_with_coordinates =
      Ok (mkState (line_num (mkState 1 [] []) + 1)
            (stdout (mkState 1 [] []) ++ out)
            (stderr (mkState 1 [] []) ++ err)) /\
    step float_decimal (mkState 1 ["x"] ["y"]) row_with_coordinates =
      Ok (mkState (line_num (mkState 1 ["x"] ["y"]) + 1)
            (stdout (mkState 1 ["x"] ["y"]) ++ out)
            (stderr (mkState 1 ["x"] ["y"]) ++ err)).
Proof.
  split; [reflexivity |].
  apply (records_are_independent float_decimal (mkState 1 [] [])
           (mkState 1 ["x"] ["y"]) row_with_coordinates).
  reflexivity.
Defined.

(** ** Strings: the identifier pattern, the slices and the split *)

Lemma match_digits_spec (n : nat) (s rest : string) :
  match_digits n s = Some rest <->
  exists a : string,
    s = (a ++ rest)%string /\ String.length a = n /\ all_digits a = true.
Proof.
  revert s. induction n as [| n IH]; intros s; simpl.
  - split.
    + intros H. injection H as <-. exists EmptyString. repeat split.
    + intros (a & -> & Hlen & _). destruct a; [reflexivity | discriminate].
  - destruct s as [| c r].
    + split; [discriminate |].
      intros (a & Hs & Hlen & _). destruct a; discriminate.
    + destruct (is_digit c) eqn:Hc.
      * rewrite IH. split.
        -- intros (a & -> & Hlen & Hd). exists (String c a).
           simpl. rewrite Hc, Hd, Hlen. repeat split.
        -- intros (a & Hs & Hlen & Hd). destruct a as [| c' a']; [discriminate |].
           simpl in Hs, Hlen, Hd. injection Hs as -> ->.
           apply andb_true_iff in Hd. destruct Hd as [_ Hd].
           exists a'. repeat split; [lia | exact Hd].
      * split; [discriminate |].
        intros (a & Hs & Hlen & Hd). destruct a as [| c' a']; [discriminate |].
        simpl in Hs, Hd. injection Hs as -> ->. rewrite Hc in Hd. discriminate.
Qed.

(** X17: the identifier test accepts exactly six digits, a hyphen and
    five digits, optionally followed by one final newline (the [$] of
    the pattern also matches before a newline that ends the string). *)
Theorem valid_id_match_iff (s : string) :
  valid_id_match s = true <->
  exists a b t : string,
    s = (a ++ "-" ++ b ++ t)%string /\
    String.length a = 6%nat /\ String.length b = 5%nat /\
    all_digits a = true /\ all_digits b = true /\
    (t = EmptyString \/ t = newline).
Proof.
  unfold valid_id_match. split.
  - destruct (match_digits 6 s) as [[| c r] |] eqn:H6; try discriminate.
    intros H. apply andb_true_iff in H. destruct H as [Hc H].
    apply Ascii.eqb_eq in Hc. subst c.
    destruct (match_digits 5 r) as [t |] eqn:H5; [| discriminate].
    apply match_digits_spec in H6. destruct H6 as (a & -> & Ha & Hda).
    apply match_digits_spec in H5. destruct H5 as (b & -> & Hb & Hdb).
    exists a, b, t. repeat split; try assumption.
    apply orb_true_iff in H. rewrite !String.eqb_eq in H. exact H.
  - intros (a & b & t & -> & Ha & Hb & Hda & Hdb & Ht).
    assert (H6 : match_digits 6 (a ++ "-" ++ b ++ t)
                 = Some (String "-" (b ++ t)))
      by (apply match_digits_spec; exists a; auto).
    assert (H5 : match_digits 5 (b ++ t) = Some t)
      by (apply match_digits_spec; exists b; auto).
    rewrite H6. cbv beta iota. rewrite H5.
    destruct Ht as [-> | ->]; reflexivity.
Qed.

Lemma substring_0_0 (s : string) : substring 0 0 s = EmptyString.
Proof. destruct s; reflexivity. Qed.

Lemma substring_prefix (s t : string) :
  substring 0 (String.length s) (s ++ t) = s.
Proof.
  induction s as [| c s IH]; simpl; [apply substring_0_0 |].
  rewrite IH. reflexivity.
Qed.

Lemma length_snoc (s : string) (b : ascii) :
  String.length (s ++ String b EmptyString) = S (String.length s).
Proof. induction s as [| c s IH]; simpl; [| rewrite IH]; reflexivity. Qed.

(** X18: [s[1:-1]] removes exactly the first and the last character,
    whatever they are, and gives the empty string on a string of fewer
    than three characters. *)
Theorem slice_1_m1_strips (a b : ascii) (s : string) :
  slice_1_m1 (String a (s ++ String b EmptyString)) = s /\
  slice_1_m1 EmptyString = EmptyString /\
  slice_1_m1 (String a EmptyString) = EmptyString /\
  slice_1_m1 (String a (String b EmptyString)) = EmptyString.
Proof.
  split; [| repeat split].
  unfold slice_1_m1. simpl String.length. rewrite length_snoc.
  simpl. rewrite Nat.sub_0_r. apply substring_prefix.
Qed.

Lemma split_not_nil (sep : ascii) (s : string) : split sep s <> [].
Proof.
  destruct s as [| c r]; simpl; [discriminate |].
  destruct (c =? sep)%char; [discriminate |].
  destruct (split sep r); discriminate.
Qed.

Lemma concat_cons (sep : string) (c : ascii) (h : string) (t : list string) :
  String.concat sep (String c h :: t) = String c (String.concat sep (h :: t)).
Proof. destruct t; reflexivity. Qed.

(** X19: [split] loses nothing and cuts at every separator: joining the
    fields with the separator gives the string back, there is one field
    more than there are separators, and no field holds a separator. *)
Theorem split_spec (sep : ascii) (s : string) :
  String.concat (String sep EmptyString) (split sep s) = s /\
  List.length (split sep s) = S (count_char sep s) /\
  Forall (fun f => count_char sep f = O) (split sep s).
Proof.
  induction s as [| c r (IHc & IHl & IHf)]; simpl.
  - repeat split. constructor; [reflexivity | constructor].
  - destruct (Ascii.eqb_spec c sep) as [-> | Hne].
    + split; [| split].
      * destruct (split sep r) as [| h t] eqn:E;
          [exfalso; exact (split_not_nil sep r E) |].
        change (String.concat (String sep EmptyString) (EmptyString :: h :: t))
          with (String sep (String.concat (String sep EmptyString) (h :: t))).
        rewrite IHc. reflexivity.
      * simpl. rewrite IHl. reflexivity.
      * constructor; [reflexivity | exact IHf].
    + destruct (split sep r) as [| h t] eqn:E;
        [exfalso; exact (split_not_nil sep r E) |].
      split; [| split].
      * rewrite concat_cons, IHc. reflexivity.
      * exact IHl.
      * inversion IHf as [| ? ? Hh Ht]; subst.
        constructor; [| exact Ht].
        simpl. apply Ascii.eqb_neq in Hne. rewrite Hne. exact Hh.
Qed.

(** ** Why the offset is there *)

Lemma small_multiple (d k : Z) : 0 < d -> - d < d * k < d -> k = 0.
Proof.
  intros Hd [Hlo Hhi].
  destruct (Z.lt_trichotomy k 0) as [Hk | [Hk | Hk]]; [| exact Hk |].
  - assert (d * k <= d * (-1)) by (apply Z.mul_le_mono_nonneg_l; lia). lia.
  - assert (d * 1 <= d * k) by (apply Z.mul_le_mono_nonneg_l; lia). lia.
Qed.

(** X20: on a negative finite float, [int] alone truncates toward zero:
    it is the floor when the value is an integer and the floor plus one
    otherwise. *)
Theorem int_of_float_negative (m : positive) (e : Z) :
  int_of_float (S754_finite true m e) =
  Ok (float_floor (S754_finite true m e) +
      if Qeq_bool (float_value (S754_finite true m e))
           (inject_Z (float_floor (S754_finite true m e)))
      then 0 else 1).
Proof.
  rewrite int_of_float_neg. f_equal.
  destruct e as [| p | p].
  - unfold float_floor, float_value. rewrite Qfloor_Z.
    rewrite Qeq_bool_refl, Z.shiftl_0_r. simpl. lia.
  - unfold float_floor, float_value. rewrite Qfloor_Z.
    rewrite Qeq_bool_refl, Z.shiftl_mul_pow2 by apply Pos2Z.is_nonneg.
    simpl cond_Zopp. lia.
  - assert (Hf : float_floor (S754_finite true m (Z.neg p))
                 = Z.neg m / 2 ^ Z.pos p).
    { rewrite float_floor_shift.
      change (Z.shiftr (Z.neg m) (Z.pos p) = Z.neg m / 2 ^ Z.pos p).
      apply Z.shiftr_div_pow2. apply Pos2Z.is_nonneg. }
    assert (Hi : Z.shiftl (Z.pos m) (Z.neg p) = Z.pos m / 2 ^ Z.pos p).
    { change (Z.shiftr (Z.pos m) (Z.pos p) = Z.pos m / 2 ^ Z.pos p).
      apply Z.shiftr_div_pow2. apply Pos2Z.is_nonneg. }
    rewrite Hf, Hi.
    unfold float_value, Qeq_bool, inject_Z. cbn [Qnum Qden cond_Zopp Z.opp].
    rewrite Pos2Z.inj_pow.
    assert (Hd : 0 < 2 ^ Z.pos p) by (apply Z.pow_pos_nonneg; lia).
    set (d := 2 ^ Z.pos p) in *.
    assert (Hd0 : d <> 0) by lia.
    pose proof (Z.div_mod (Z.pos m) d Hd0) as H1.
    pose proof (Z.mod_pos_bound (Z.pos m) d Hd) as H2.
    pose proof (Z.div_mod (Z.neg m) d Hd0) as H3.
    pose proof (Z.mod_pos_bound (Z.neg m) d Hd) as H4.
    set (q1 := Z.pos m / d) in *. set (r1 := Z.pos m mod d) in *.
    set (q2 := Z.neg m / d) in *. set (r2 := Z.neg m mod d) in *.
    destruct (Z.eqb_spec (Z.neg m * 1) (q2 * d)) as [E | E].
    + assert (d * (q1 + q2) = - r1) by lia.
      assert (q1 + q2 = 0) by (apply (small_multiple d); lia). lia.
    + assert (r2 <> 0) by lia.
      assert (d * (q1 + q2 + 1) = d - r1 - r2) by lia.
      assert (q1 + q2 + 1 = 0) by (apply (small_multiple d); lia). lia.
Qed.

Example int_of_float_m0_5 :
  int_of_float (S754_finite true 4503599627370496 (-53)) = Ok 0 /\
  float_floor (S754_finite true 4503599627370496 (-53)) = -1.
Proof. split; reflexivity. Qed.
